(** * Social Media Script Generator: the Streamlit form of [app.py]

    A shallow embedding of [src/app.py] and the properties its
    specification states about it.

    The program is one Streamlit script.  Every interaction of the user
    re-executes [main] from the top; the values of the widgets come from the
    browser, and the only outbound effect is one request to a hosted chat
    model.  The embedding therefore has three layers:

    - Python values and the string operations the script uses
      ([str.lower], [str.join], truthiness, [str.format]-style templates);
    - the objects of the two libraries the script wires together (the chat
      prompt template, the model client, the chain) and the Streamlit
      widgets, each reduced to what the script observes of it;
    - [main] itself, written in a small state-and-exception monad over the
      process environment, the log of what was rendered and requested, and
      the external service. *)

From Stdlib Require Import Ascii QArith.
From stdpp Require Import base strings gmap list pretty.

Open Scope Z_scope.

(** ** Python strings *)

Module PyString.

(** [c.lower()] on one ASCII character: a letter [A]..[Z] becomes the
    character 32 codes later, everything else stays. *)
Definition lower_ascii (c : ascii) : ascii :=
  let n := nat_of_ascii c in
  if (Nat.leb 65 n && Nat.leb n 90)%bool then ascii_of_nat (n + 32) else c.

(** [s.lower()] *)
Fixpoint lower (s : string) : string :=
  match s with
  | EmptyString => EmptyString
  | String c s' => String (lower_ascii c) (lower s')
  end.

(** [sep.join(items)]: the separator goes before every item but the
    first. *)
Fixpoint join_rest (sep : string) (items : list string) : string :=
  match items with
  | [] => ""
  | x :: rest => sep +:+ x +:+ join_rest sep rest
  end.

Definition join (sep : string) (items : list string) : string :=
  match items with
  | [] => ""
  | x :: rest => x +:+ join_rest sep rest
  end.

(** [needle in hay], decided by trying every position. *)
Fixpoint startswith (hay needle : string) {struct needle} : bool :=
  match needle, hay with
  | EmptyString, _ => true
  | String c n', String d h' => if decide (c = d) then startswith h' n' else false
  | String _ _, EmptyString => false
  end.

Fixpoint is_in (needle hay : string) : bool :=
  startswith hay needle ||
  match hay with
  | EmptyString => false
  | String _ h' => is_in needle h'
  end.

(** The same as a proposition: [hay] is [needle] with something before
    and something after it. *)
Definition contains (hay needle : string) : Prop :=
  ∃ pre post, hay = pre +:+ needle +:+ post.

End PyString.

(** ** Python values that reach the template *)

Inductive PyVal :=
  | PyStr (s : string)
  | PyInt (n : Z).

(** Formatting with an empty format specification, which is [str(v)] for
    both kinds of value. *)
Definition py_str (v : PyVal) : string :=
  match v with
  | PyStr s => s
  | PyInt n => pretty n
  end.

(** Truthiness, as [if] and [and] test it. *)
Definition truthy_str (s : string) : bool :=
  match s with EmptyString => false | String _ _ => true end.

Definition truthy_int (n : Z) : bool := negb (n =? 0).

Definition truthy_list {A} (l : list A) : bool :=
  match l with [] => false | _ :: _ => true end.

(** An instance of Python's [Exception], the class the handler of line 105
    names; [exc_text] is what [str(e)] and the f-string [{e}] print. *)
Record Exception := mkException { exc_class : string; exc_text : string }.

Definition KeyError (key : string) : Exception :=
  mkException "KeyError" ("'" +:+ key +:+ "'").

Definition ValueError (msg : string) : Exception :=
  mkException "ValueError" msg.

(** ** Format-string templates

    [ChatPromptTemplate] keeps each message as an f-string style template
    and fills it with [str.format] semantics: the template is split into
    literal text and replacement fields, [{{] and [}}] stand for a brace,
    and every field is replaced by the formatted value found under its
    name.  Substituted text is never scanned again.  The fragment modelled
    is the one with plain field names: a conversion ([!r]), a format
    specification ([:...]) or an attribute or index lookup inside a field
    is rejected. *)

Module Template.

Inductive Segment :=
  | Lit (text : string)
  | Field (name : string).

Definition snoc_char (s : string) (c : ascii) : string := s +:+ String c "".

Definition plain_name_char (c : ascii) : bool :=
  negb (bool_decide (c ∈ ["!"; ":"; "."; "["; "]"; "{"]%char)).

(** The scanner.  [field = None]: reading literal text collected in
    [lit]; [field = Some name]: between the braces of a field. *)
Fixpoint scan (t : string) (lit : string) (field : option string)
  : Exception + list Segment :=
  match field with
  | None =>
      match t with
      | EmptyString => inr [Lit lit]
      | String "{" (String "{" t') => scan t' (snoc_char lit "{") None
      | String "{" EmptyString =>
          inl (ValueError "Single '{' encountered in format string")
      | String "{" t' =>
          match scan t' "" (Some "") with
          | inr segs => inr (Lit lit :: segs)
          | inl e => inl e
          end
      | String "}" (String "}" t') => scan t' (snoc_char lit "}") None
      | String "}" _ =>
          inl (ValueError "Single '}' encountered in format string")
      | String c t' => scan t' (snoc_char lit c) None
      end
  | Some name =>
      match t with
      | EmptyString => inl (ValueError "expected '}' before end of string")
      | String "}" t' =>
          match scan t' "" None with
          | inr segs => inr (Field name :: segs)
          | inl e => inl e
          end
      | String c t' =>
          if plain_name_char c then scan t' lit (Some (snoc_char name c))
          else inl (ValueError "unsupported replacement field")
      end
  end.

Definition parse (t : string) : Exception + list Segment := scan t "" None.

(** Filling the fields from the keyword arguments. *)
Fixpoint vformat (segs : list Segment) (kwargs : gmap string PyVal)
  : Exception + string :=
  match segs with
  | [] => inr ""
  | Lit text :: rest =>
      match vformat rest kwargs with
      | inr out => inr (text +:+ out)
      | inl e => inl e
      end
  | Field name :: rest =>
      match kwargs !! name with
      | None => inl (KeyError name)
      | Some v =>
          match vformat rest kwargs with
          | inr out => inr (py_str v +:+ out)
          | inl e => inl e
          end
      end
  end.

(** [template.format] applied to the keyword arguments [kwargs] *)
Definition format (t : string) (kwargs : gmap string PyVal)
  : Exception + string :=
  match parse t with
  | inr segs => vformat segs kwargs
  | inl e => inl e
  end.

End Template.

(** ** The chat prompt, the model client and the chain *)

Record Message := mkMessage { role : string; content : string }.

(** [ChatPromptTemplate.from_messages]: one (role, template) pair per
    message. *)
Definition ChatPromptTemplate := list (string * string).

Fixpoint format_messages (p : ChatPromptTemplate) (kwargs : gmap string PyVal)
  : Exception + list Message :=
  match p with
  | [] => inr []
  | (r, t) :: rest =>
      match Template.format t kwargs with
      | inl e => inl e
      | inr text =>
          match format_messages rest kwargs with
          | inl e => inl e
          | inr msgs => inr (mkMessage r text :: msgs)
          end
      end
  end.

(** The client object: the two constructor arguments of the script and the
    credential, which the client library reads from the process environment
    when the object is built. *)
Record ChatOpenAI := mkChatOpenAI {
  temperature : Q;
  model_name : string;
  openai_api_key : option string
}.

(** What one call of the model sends to the hosted service. *)
Record Request := mkRequest {
  req_api_key : option string;
  req_model : string;
  req_temperature : Q;
  req_messages : list Message
}.

(** What the service call gives back: the text of the reply, or an
    exception raised by the client. *)
Inductive Outcome :=
  | Returned (text : string)
  | Raised (e : Exception).

(** [prompt | llm | StrOutputParser()]; the parser maps the reply to its
    text and has no parameters of its own. *)
Record Chain := mkChain { chain_prompt : ChatPromptTemplate; chain_llm : ChatOpenAI }.

Definition StrOutputParser (reply : string) : string := reply.

(** ** What the script shows and does *)

Inductive Element :=
  | StTitle (body : string)
  | StWrite (body : string)
  | StSidebarTitle (body : string)
  | StSidebarTextInput (label type : string)
  | StSelectbox (label : string) (options : list string)
  | StTextInput (label : string)
  | StMultiselect (label : string) (options : list string)
  | StSlider (label : string) (min_value max_value step : Z)
  | StButton (label : string)
  | StSpinner (text : string)
  | StSuccess (body : string)
  | StSubheader (body : string)
  | StWarning (body : string)
  | StError (body : string).

Inductive Event :=
  | Rendered (e : Element)
  | Constructed (llm : ChatOpenAI)
  | Invoked (inputs : gmap string PyVal)
  | Requested (r : Request).

(** What the browser holds when the script runs: the text typed, the
    position of every selector, the options picked (in the order they were
    picked), the notch of the slider, and whether the button was the
    interaction that caused this run. *)
Record Widgets := mkWidgets {
  api_key_input : string;
  content_type_index : nat;
  topic_input : string;
  category_index : nat;
  audience_selection : list nat;
  format_index : nat;
  duration_notch : nat;
  generate_clicked : bool
}.

(** Values of the widgets.  A selector shows its first option until another
    one is chosen; a multiselect starts empty; a slider starts at its
    minimum and moves in multiples of [step] without passing the maximum. *)
Definition selectbox_value (options : list string) (index : nat) : string :=
  match options !! index with
  | Some o => o
  | None => default "" (head options)
  end.

Definition multiselect_value (options : list string) (selection : list nat)
  : list string :=
  omap (λ i, options !! i) selection.

Definition slider_value (min_value max_value step : Z) (notch : nat) : Z :=
  min_value + step * Z.min (Z.of_nat notch) ((max_value - min_value) / step).

Section App.

(** The hosted service, seen through the client object: one invocation
    of the client with a request ends with the text of a reply or with
    an exception, and leaves the outside world in a new condition.  What
    the client library does below that call (its transport, its own
    defaults) is part of [service]. *)
Context {World : Type}.
Variable service : World → Request → Outcome * World.

Record State := mkState {
  environ : gmap string string;
  trace : list Event;
  world : World
}.

(** Computations of the script: they read and change the state and end
    with a value or with a raised exception. *)
Definition M (A : Type) : Type := State → (Exception + A) * State.

Definition ret {A} (a : A) : M A := λ s, (inr a, s).

Definition bind {A B} (m : M A) (k : A → M B) : M B :=
  λ s, match m s with
       | (inr a, s') => k a s'
       | (inl e, s') => (inl e, s')
       end.

Definition raise {A} (e : Exception) : M A := λ s, (inl e, s).

Definition try_except {A} (body : M A) (handler : Exception → M A) : M A :=
  λ s, match body s with
       | (inr a, s') => (inr a, s')
       | (inl e, s') => handler e s'
       end.

Definition lift {A} (r : Exception + A) : M A := λ s, (r, s).

Definition log (ev : Event) : M unit :=
  λ s, (inr tt, mkState (environ s) (trace s ++ [ev]) (world s)).

Definition setenv (key value : string) : M unit :=
  λ s, (inr tt, mkState (<[key := value]> (environ s)) (trace s) (world s)).

Definition getenv (key : string) : M (option string) :=
  λ s, (inr (environ s !! key), s).

(** One invocation of the model client. *)
Definition call_service (r : Request) : M string :=
  λ s, let '(out, w') := service (world s) r in
       let s' := mkState (environ s) (trace s ++ [Requested r]) w' in
       match out with
       | Returned text => (inr text, s')
       | Raised e => (inl e, s')
       end.

#[local] Instance M_ret : MRet M := @ret.
#[local] Instance M_bind : MBind M := λ A B k m, bind m k.

(** *** Streamlit calls *)

Definition st_title (body : string) : M unit := log (Rendered (StTitle body)).
Definition st_write (body : string) : M unit := log (Rendered (StWrite body)).
Definition st_sidebar_title (body : string) : M unit :=
  log (Rendered (StSidebarTitle body)).
Definition st_success (body : string) : M unit := log (Rendered (StSuccess body)).
Definition st_subheader (body : string) : M unit :=
  log (Rendered (StSubheader body)).
Definition st_warning (body : string) : M unit := log (Rendered (StWarning body)).
Definition st_error (body : string) : M unit := log (Rendered (StError body)).

Definition st_sidebar_text_input (label type typed : string) : M string :=
  log (Rendered (StSidebarTextInput label type));; ret typed.

Definition st_text_input (label typed : string) : M string :=
  log (Rendered (StTextInput label));; ret typed.

Definition st_selectbox (label : string) (options : list string) (index : nat)
  : M string :=
  log (Rendered (StSelectbox label options));;
  ret (selectbox_value options index).

Definition st_multiselect (label : string) (options : list string)
    (selection : list nat) : M (list string) :=
  log (Rendered (StMultiselect label options));;
  ret (multiselect_value options selection).

Definition st_slider (label : string) (min_value max_value step : Z)
    (notch : nat) : M Z :=
  log (Rendered (StSlider label min_value max_value step));;
  ret (slider_value min_value max_value step notch).

Definition st_button (label : string) (clicked : bool) : M bool :=
  log (Rendered (StButton label));; ret clicked.

(** [with st.spinner(text): body] *)
Definition st_spinner {A} (text : string) (body : M A) : M A :=
  log (Rendered (StSpinner text));; body.

(** *** Setup and configuration (lines 11-14) *)

Definition initialize_openai_model (api_key : string) : M ChatOpenAI :=
  setenv "OPENAI_API_KEY" api_key;;
  key ← getenv "OPENAI_API_KEY";
  let llm := mkChatOpenAI (1 # 2) "gpt-4o-mini-0125" key in
  log (Constructed llm);;
  ret llm.

(** *** The prompt template (lines 20-35) *)

Definition nl : string := String "010" "".

Definition indent : string := "                    ".

Definition user_template : string :=
  "You are a social media script writer. " +:+ nl +:+
  indent +:+ "Write a {format} script for {content_type} about {topic}." +:+ nl +:+
  indent +:+ "The category of the topic is {category}, the target audience includes {audience}, and" +:+ nl +:+
  indent +:+ "the duration is {duration} seconds." +:+ nl +:+
  indent +:+ "Generate an appropriate title as well for the generated content." +:+ nl +:+
  nl +:+
  indent +:+ "Output format:" +:+ nl +:+
  indent +:+ "Title:" +:+ nl +:+
  indent +:+ "Script:" +:+ nl +:+
  "         ".

Definition define_prompt_template : ChatPromptTemplate :=
  [("user", user_template)].

Definition prompt : ChatPromptTemplate := define_prompt_template.

(** *** The chain (lines 38-40) *)

Definition create_chain (llm : ChatOpenAI) : Chain := mkChain prompt llm.

Definition chain_invoke (chain : Chain) (inputs : gmap string PyVal) : M string :=
  log (Invoked inputs);;
  msgs ← lift (format_messages (chain_prompt chain) inputs);
  let llm := chain_llm chain in
  reply ← call_service
             (mkRequest (openai_api_key llm) (model_name llm) (temperature llm) msgs);
  ret (StrOutputParser reply).

(** *** Script generation (lines 46-56) *)

Definition generate_script (content_type topic category : string)
    (audience : list string) (format : string) (duration : Z) (chain : Chain)
  : M string :=
  response ← chain_invoke chain
    (<["content_type" := PyStr content_type]>
     (<["topic" := PyStr topic]>
      (<["category" := PyStr category]>
       (<["audience" := PyStr (PyString.join ", " audience)]>
        (<["format" := PyStr format]>
         (<["duration" := PyInt duration]> ∅))))));
  ret response.

(** *** The Streamlit app (lines 62-110) *)

(** The test of line 98. *)
Definition all_fields_filled (content_type category : string)
    (audience : list string) (format : string) (duration : Z) (topic : string)
  : bool :=
  truthy_str content_type && truthy_str category && truthy_list audience
  && truthy_str format && truthy_int duration && truthy_str topic.

(** Lines 98-108: what a click on the button does. *)
Definition on_generate (content_type topic category : string)
    (audience : list string) (format : string) (duration : Z) (chain : Chain)
  : M unit :=
  if all_fields_filled content_type category audience format duration topic
  then
    try_except
      (script ← st_spinner "Generating script..."
                   (generate_script content_type topic category audience
                      format duration chain);
       st_success "Script generated successfully!";;
       st_subheader "Generated Script";;
       st_write script)
      (λ e, st_error ("An error occurred: " +:+ exc_text e))
  else
    st_warning "Please fill in all the fields.".

Definition main (w : Widgets) : M unit :=
  st_title "Social Media Script Generator";;
  st_write "This app generates scripts for social media content using OpenAI's gpt-4o-mini-0125 model.";;
  st_sidebar_title "Configuration";;
  api_key ← st_sidebar_text_input "Enter your OpenAI API key" "password"
               (api_key_input w);
  if truthy_str api_key then
    llm ← initialize_openai_model api_key;
    let chain := create_chain llm in
    content_type_label ← st_selectbox "Select Content Type"
                            ["YouTube"; "Instagram"] (content_type_index w);
    let content_type := PyString.lower content_type_label in
    topic ← st_text_input "Enter the Topic for the Script" (topic_input w);
    category ← st_selectbox "Select the Category of the Script"
                  ["Fashion"; "Education"; "Technology"; "Health"; "Travel"]
                  (category_index w);
    audience ← st_multiselect "Select the Target Audience"
                  ["Students"; "Housewives"; "Professionals"; "Teenagers"; "Seniors"]
                  (audience_selection w);
    format_label ← st_selectbox "Select Format" ["Reel"; "Video"]
                      (format_index w);
    let format := PyString.lower format_label in
    duration ← st_slider "Select the Duration of the Script in Seconds"
                  15 300 5 (duration_notch w);
    clicked ← st_button "Generate Script" (generate_clicked w);
    if (clicked : bool) then
      on_generate content_type topic category audience format duration chain
    else ret tt
  else
    st_warning "Please enter your OpenAI API key in the sidebar.".

End App.

Arguments State : clear implicits.
Arguments M : clear implicits.

(** One execution of the script.  Streamlit builds the page anew on every
    run, so a run starts from an empty log; the environment and the world
    are what the previous run left. *)
Definition script_run {World} (service : World → Request → Outcome * World)
    (w : Widgets) (env : gmap string string) (wd : World)
  : (Exception + unit) * State World :=
  main service w (mkState env [] wd).

(** ** Reading a log *)

Definition page (t : list Event) : list Element :=
  omap (λ ev, match ev with Rendered e => Some e | _ => None end) t.

Definition constructions (t : list Event) : list ChatOpenAI :=
  omap (λ ev, match ev with Constructed llm => Some llm | _ => None end) t.

Definition invocations (t : list Event) : list (gmap string PyVal) :=
  omap (λ ev, match ev with Invoked kw => Some kw | _ => None end) t.

Definition requests (t : list Event) : list Request :=
  omap (λ ev, match ev with Requested r => Some r | _ => None end) t.

Definition warnings (t : list Event) : list string :=
  omap (λ e, match e with StWarning body => Some body | _ => None end) (page t).

Definition errors (t : list Event) : list string :=
  omap (λ e, match e with StError body => Some body | _ => None end) (page t).

(** The page down to the credential field, and the controls that follow it
    when a credential is present: the same elements on every run, whatever
    the widgets hold. *)
Definition header_page : list Element :=
  [ StTitle "Social Media Script Generator";
    StWrite "This app generates scripts for social media content using OpenAI's gpt-4o-mini-0125 model.";
    StSidebarTitle "Configuration";
    StSidebarTextInput "Enter your OpenAI API key" "password" ].

Definition controls_page : list Element :=
  [ StSelectbox "Select Content Type" ["YouTube"; "Instagram"];
    StTextInput "Enter the Topic for the Script";
    StSelectbox "Select the Category of the Script"
      ["Fashion"; "Education"; "Technology"; "Health"; "Travel"];
    StMultiselect "Select the Target Audience"
      ["Students"; "Housewives"; "Professionals"; "Teenagers"; "Seniors"];
    StSelectbox "Select Format" ["Reel"; "Video"];
    StSlider "Select the Duration of the Script in Seconds" 15 300 5;
    StButton "Generate Script" ].


(** The values the script reads from the widgets (lines 77-95). *)
Definition content_type_of (w : Widgets) : string :=
  PyString.lower (selectbox_value ["YouTube"; "Instagram"] (content_type_index w)).

Definition category_of (w : Widgets) : string :=
  selectbox_value ["Fashion"; "Education"; "Technology"; "Health"; "Travel"]
    (category_index w).

Definition audience_of (w : Widgets) : list string :=
  multiselect_value
    ["Students"; "Housewives"; "Professionals"; "Teenagers"; "Seniors"]
    (audience_selection w).

Definition format_of (w : Widgets) : string :=
  PyString.lower (selectbox_value ["Reel"; "Video"] (format_index w)).

Definition duration_of (w : Widgets) : Z :=
  slider_value 15 300 5 (duration_notch w).

(** The keyword arguments of line 48, and the prompt the specification
    describes: the template text with the six values in their places. *)
Definition script_inputs (content_type topic category : string)
    (audience : list string) (format : string) (duration : Z)
  : gmap string PyVal :=
  <["content_type" := PyStr content_type]>
   (<["topic" := PyStr topic]>
    (<["category" := PyStr category]>
     (<["audience" := PyStr (PyString.join ", " audience)]>
      (<["format" := PyStr format]>
       (<["duration" := PyInt duration]> ∅))))).

Definition expected_prompt (format content_type topic category audience duration : string)
  : string :=
  "You are a social media script writer. " +:+ nl +:+
  indent +:+ "Write a " +:+ format +:+ " script for " +:+ content_type +:+
    " about " +:+ topic +:+ "." +:+ nl +:+
  indent +:+ "The category of the topic is " +:+ category +:+
    ", the target audience includes " +:+ audience +:+ ", and" +:+ nl +:+
  indent +:+ "the duration is " +:+ duration +:+ " seconds." +:+ nl +:+
  indent +:+ "Generate an appropriate title as well for the generated content." +:+ nl +:+
  nl +:+
  indent +:+ "Output format:" +:+ nl +:+
  indent +:+ "Title:" +:+ nl +:+
  indent +:+ "Script:" +:+ nl +:+
  "         ".

(** The request a run sends when the form is complete. *)
Definition script_request (api_key : string) (w : Widgets) : Request :=
  mkRequest (Some api_key) "gpt-4o-mini-0125" (1 # 2)
    [mkMessage "user"
       (expected_prompt (format_of w) (content_type_of w) (topic_input w)
          (category_of w) (PyString.join ", " (audience_of w))
          (pretty (duration_of w)))].

(** The request made for six values through a client [llm]. *)
Definition request_for (llm : ChatOpenAI) (ct topic cat : string)
    (aud : list string) (fmt : string) (d : Z) : Request :=
  mkRequest (openai_api_key llm) (model_name llm) (temperature llm)
    [mkMessage "user"
       (expected_prompt fmt ct topic cat (PyString.join ", " aud) (pretty d))].

(** The state after an invocation that was preceded by the events [pre]:
    the inputs and the request are in the log, and the world has moved
    on. *)
Definition after_request {World} (service : World → Request → Outcome * World)
    (llm : ChatOpenAI) (ct topic cat : string) (aud : list string)
    (fmt : string) (d : Z) (pre : list Event) (s : State World)
  : State World :=
  let r := request_for llm ct topic cat aud fmt d in
  mkState (environ s)
    (trace s ++ pre ++ [Invoked (script_inputs ct topic cat aud fmt d); Requested r])
    (service (world s) r).2.

(** What a run with a credential logs down to the button: the page, with
    the construction of the client after the credential field. *)
Definition form_events (api_key : string) : list Event :=
  map Rendered header_page ++
  [Constructed (mkChatOpenAI (1 # 2) "gpt-4o-mini-0125" (Some api_key))] ++
  map Rendered controls_page.

(** The prompt of the latest request in a log. *)
Definition last_prompt (t : list Event) : option (list Message) :=
  req_messages <$> last (requests t).

(** The same widgets with the button clicked or not, and with the slider at
    another notch. *)
Definition with_click (b : bool) (w : Widgets) : Widgets :=
  mkWidgets (api_key_input w) (content_type_index w) (topic_input w)
    (category_index w) (audience_selection w) (format_index w)
    (duration_notch w) b.

Definition with_notch (n : nat) (w : Widgets) : Widgets :=
  mkWidgets (api_key_input w) (content_type_index w) (topic_input w)
    (category_index w) (audience_selection w) (format_index w)
    n (generate_clicked w).

(** ** Services to run the script against *)

(** A service that plays back prepared outcomes, one per request, and
    refuses the connection when none is left. *)
Definition scripted (wd : list Outcome) (r : Request) : Outcome * list Outcome :=
  match wd with
  | [] => (Raised (mkException "APIConnectionError" "Connection error."), [])
  | o :: rest => (o, rest)
  end.

(** A service whose reply changes from one request to the next even when
    the requests are equal. *)
Definition numbered (wd : nat) (r : Request) : Outcome * nat :=
  (Returned ("Title: take " +:+ pretty wd), S wd).

(** A complete form with the button clicked: YouTube, "coffee brewing",
    Education, Students and Professionals, Reel, 30 seconds. *)
Definition demo_widgets : Widgets :=
  mkWidgets "sk-demo" 0 "coffee brewing" 1 [0%nat; 2%nat] 0 3 true.

(** The same form before a credential was typed. *)
Definition no_key_widgets : Widgets :=
  mkWidgets "" 0 "coffee brewing" 1 [0%nat; 2%nat] 0 3 true.

(** A form whose topic was left empty. *)
Definition no_topic_widgets : Widgets :=
  mkWidgets "sk-demo" 1 "" 2 [4%nat] 1 57 true.

Definition rejected_key : Exception :=
  mkException "AuthenticationError" "Incorrect API key provided.".

(** A world in which the first request is refused and the second one is
    answered. *)
Definition refused_then_answered : list Outcome :=
  [Raised rejected_key; Returned "Title: Brewing at home"].

(** ** Further readings of a log and of the widgets *)




(** The names of the replacement fields of a parsed template, in order. *)
Fixpoint template_fields (segs : list Template.Segment) : list string :=
  match segs with
  | [] => []
  | Template.Lit _ :: rest => template_fields rest
  | Template.Field name :: rest => name :: template_fields rest
  end.

(** Labels that [", ".join] keeps apart: not empty and without a comma. *)
Fixpoint comma_free (s : string) : bool :=
  match s with
  | EmptyString => true
  | String c s' => negb (Ascii.eqb c ",") && comma_free s'
  end.

Definition plain_label (s : string) : bool := truthy_str s && comma_free s.


(** * Properties *)

(** ** Strings *)

Module PyStringFacts.
Import PyString.

Lemma append_cons (c : ascii) (s t : string) :
  String c s +:+ t = String c (s +:+ t).
Proof. reflexivity. Qed.

Lemma append_nil_r (s : string) : s +:+ "" = s.
Proof.
  induction s as [|c s IH]; [done |].
  by rewrite append_cons, IH.
Qed.

Lemma append_assoc (s1 s2 s3 : string) :
  (s1 +:+ s2) +:+ s3 = s1 +:+ (s2 +:+ s3).
Proof.
  induction s1 as [|c s1 IH]; [done |].
  by rewrite !append_cons, IH.
Qed.

Lemma startswith_spec (hay needle : string) :
  startswith hay needle = true ↔ ∃ post, hay = needle +:+ post.
Proof.
  revert hay. induction needle as [|c n IH]; intros hay; simpl.
  - split; [intros _; by exists hay | done].
  - destruct hay as [|d h].
    + split; [done | intros [post Hpost]; rewrite append_cons in Hpost; discriminate].
    + destruct (decide (c = d)) as [->|Hne].
      * rewrite IH. split; intros [post Hpost]; exists post.
        -- by rewrite append_cons, Hpost.
        -- rewrite append_cons in Hpost. by injection Hpost.
      * split; [done |]. intros [post Hpost].
        rewrite append_cons in Hpost. injection Hpost as Hcd _. congruence.
Qed.

(** The decision procedure and the proposition agree. *)
Lemma is_in_contains (needle hay : string) :
  is_in needle hay = true ↔ contains hay needle.
Proof.
  unfold contains. induction hay as [|d h IH]; simpl.
  - rewrite orb_false_r, startswith_spec. split.
    + intros [post Hpost]. by exists "", post.
    + intros ([|c pre] & post & Hpost); [by exists post |].
      rewrite append_cons in Hpost. discriminate.
  - rewrite orb_true_iff, startswith_spec, IH. split.
    + intros [[post Hpost] | (pre & post & Hpost)].
      * by exists "", post.
      * exists (String d pre), post. by rewrite append_cons, Hpost.
    + intros ([|c pre] & post & Hpost).
      * left. by exists post.
      * right. rewrite append_cons in Hpost. injection Hpost as _ Hh.
        by exists pre, post.
Qed.

Lemma contains_start (hay needle post : string) :
  hay = needle +:+ post → contains hay needle.
Proof. intros ->. by exists "", post. Qed.

Lemma contains_skip_char (c : ascii) (lit hay needle : string) :
  contains (lit +:+ hay) needle → contains (String c lit +:+ hay) needle.
Proof.
  intros (pre & post & Heq). exists (String c pre), post.
  by rewrite !append_cons, Heq.
Qed.

Lemma contains_skip (pre hay needle : string) :
  contains hay needle → contains (pre +:+ hay) needle.
Proof.
  intros (pre' & post & ->). exists (pre +:+ pre'), post.
  by rewrite append_assoc.
Qed.

(** [join] against the library's own joining function. *)
Lemma join_concat (sep : string) (items : list string) :
  join sep items = String.concat sep items.
Proof.
  destruct items as [|x rest]; [done |]. simpl.
  revert x. induction rest as [|y rest IH]; intros x; simpl.
  - by rewrite append_nil_r.
  - by rewrite <- IH.
Qed.

Lemma lower_truthy (s : string) : truthy_str (lower s) = truthy_str s.
Proof. by destruct s. Qed.

End PyStringFacts.

(** Finding a needle in a text written as a chain of appended pieces: try
    the front of the text; else drop its first character when it starts
    with a literal, or its first piece, and go on. *)
Ltac find_needle :=
  first
    [ solve [ eapply PyStringFacts.contains_start;
              rewrite ?PyStringFacts.append_assoc; reflexivity ]
    | apply PyStringFacts.contains_skip_char; find_needle
    | apply PyStringFacts.contains_skip; find_needle ].

(** ** The prompt template *)

Lemma user_template_parse :
  Template.parse user_template =
  inr [ Template.Lit ("You are a social media script writer. " +:+ nl +:+
                      indent +:+ "Write a ");
        Template.Field "format";
        Template.Lit " script for ";
        Template.Field "content_type";
        Template.Lit " about ";
        Template.Field "topic";
        Template.Lit ("." +:+ nl +:+ indent +:+ "The category of the topic is ");
        Template.Field "category";
        Template.Lit ", the target audience includes ";
        Template.Field "audience";
        Template.Lit (", and" +:+ nl +:+ indent +:+ "the duration is ");
        Template.Field "duration";
        Template.Lit (" seconds." +:+ nl +:+
                      indent +:+ "Generate an appropriate title as well for the generated content." +:+ nl +:+
                      nl +:+
                      indent +:+ "Output format:" +:+ nl +:+
                      indent +:+ "Title:" +:+ nl +:+
                      indent +:+ "Script:" +:+ nl +:+
                      "         ") ].
Proof. vm_compute. reflexivity. Qed.

Lemma script_inputs_lookup ct topic cat aud fmt d :
  let kw := script_inputs ct topic cat aud fmt d in
  kw !! "format" = Some (PyStr fmt) ∧
  kw !! "content_type" = Some (PyStr ct) ∧
  kw !! "topic" = Some (PyStr topic) ∧
  kw !! "category" = Some (PyStr cat) ∧
  kw !! "audience" = Some (PyStr (PyString.join ", " aud)) ∧
  kw !! "duration" = Some (PyInt d).
Proof. unfold script_inputs. repeat split; by simplify_map_eq. Qed.

(** Filling the template with the six values never fails and gives the
    template text with each value in its place. *)
Lemma format_user_template ct topic cat aud fmt d :
  Template.format user_template (script_inputs ct topic cat aud fmt d) =
  inr (expected_prompt fmt ct topic cat (PyString.join ", " aud) (pretty d)).
Proof.
  unfold Template.format. rewrite user_template_parse.
  destruct (script_inputs_lookup ct topic cat aud fmt d)
    as (Hf & Hct & Ht & Hc & Ha & Hd).
  simpl. rewrite Hf, Hct, Ht, Hc, Ha, Hd. reflexivity.
Qed.

Lemma format_messages_prompt ct topic cat aud fmt d :
  format_messages prompt (script_inputs ct topic cat aud fmt d) =
  inr [mkMessage "user"
         (expected_prompt fmt ct topic cat (PyString.join ", " aud) (pretty d))].
Proof.
  unfold prompt, define_prompt_template. simpl.
  by rewrite format_user_template.
Qed.

(** ** Runs of the script *)

Section Runs.

Context {World : Type} (service : World → Request → Outcome * World).

Implicit Types (s : State World) (w : Widgets) (llm : ChatOpenAI).

Lemma generate_script_run ct topic cat aud fmt d llm s :
  generate_script service ct topic cat aud fmt d (create_chain llm) s =
  (match (service (world s) (request_for llm ct topic cat aud fmt d)).1 with
   | Returned text => inr text
   | Raised e => inl e
   end,
   after_request service llm ct topic cat aud fmt d [] s).
Proof.
  unfold generate_script, chain_invoke, after_request.
  change (<["content_type":=PyStr ct]> _) with (script_inputs ct topic cat aud fmt d).
  unfold mbind, M_bind, bind, log, lift, call_service.
  change (chain_prompt (create_chain llm)) with prompt.
  rewrite format_messages_prompt. simpl.
  fold (request_for llm ct topic cat aud fmt d).
  destruct (service _ _) as [[text|e] wd']; simpl;
    by rewrite <- app_assoc.
Qed.

Lemma on_generate_incomplete ct topic cat aud fmt d chain s :
  all_fields_filled ct cat aud fmt d topic = false →
  on_generate service ct topic cat aud fmt d chain s =
  (inr (), mkState (environ s)
             (trace s ++ [Rendered (StWarning "Please fill in all the fields.")])
             (world s)).
Proof. intros H. unfold on_generate. by rewrite H. Qed.

Lemma on_generate_complete ct topic cat aud fmt d llm s :
  all_fields_filled ct cat aud fmt d topic = true →
  on_generate service ct topic cat aud fmt d (create_chain llm) s =
  let s1 := after_request service llm ct topic cat aud fmt d
              [Rendered (StSpinner "Generating script...")] s in
  (inr (),
   mkState (environ s1)
     (trace s1 ++
      match (service (world s) (request_for llm ct topic cat aud fmt d)).1 with
      | Returned text =>
          [ Rendered (StSuccess "Script generated successfully!");
            Rendered (StSubheader "Generated Script");
            Rendered (StWrite text) ]
      | Raised e => [ Rendered (StError ("An error occurred: " +:+ exc_text e)) ]
      end)
     (world s1)).
Proof.
  intros H. unfold on_generate. rewrite H.
  unfold try_except, st_spinner, mbind, M_bind, bind.
  unfold log at 1. simpl. rewrite generate_script_run.
  unfold after_request. simpl.
  destruct (service _ _) as [[text|e] wd']; simpl.
  - unfold st_success, st_subheader, st_write, log. simpl.
    by rewrite <- !app_assoc.
  - unfold st_error, log. simpl. by rewrite <- !app_assoc.
Qed.

(** Without a credential the run ends at the warning of line 110. *)
Lemma main_no_key w s :
  truthy_str (api_key_input w) = false →
  main service w s =
  (inr (), mkState (environ s)
             (trace s ++ map Rendered header_page ++
              [Rendered (StWarning "Please enter your OpenAI API key in the sidebar.")])
             (world s)).
Proof.
  intros H. unfold main, mbind, M_bind, bind.
  unfold st_title, st_write, st_sidebar_title, st_sidebar_text_input,
    st_warning, mbind, M_bind, bind, log, mret, M_ret, ret. simpl.
  rewrite H. simpl. by rewrite <- !app_assoc.
Qed.

(** With a credential the run sets the variable, builds the client,
    draws the form, and hands over to [on_generate] if the button was
    clicked. *)
Lemma main_with_key w s :
  truthy_str (api_key_input w) = true →
  main service w s =
  let llm := mkChatOpenAI (1 # 2) "gpt-4o-mini-0125" (Some (api_key_input w)) in
  let s1 := mkState (<["OPENAI_API_KEY" := api_key_input w]> (environ s))
              (trace s ++ map Rendered header_page ++ [Constructed llm] ++
               map Rendered controls_page)
              (world s) in
  if generate_clicked w then
    on_generate service (content_type_of w) (topic_input w) (category_of w)
      (audience_of w) (format_of w) (duration_of w) (create_chain llm) s1
  else (inr (), s1).
Proof.
  intros H. unfold main, mbind, M_bind, bind.
  unfold st_title, st_write, st_sidebar_title, st_sidebar_text_input,
    st_selectbox, st_text_input, st_multiselect, st_slider, st_button,
    initialize_openai_model, setenv, getenv,
    mbind, M_bind, bind, log, mret, M_ret, ret. simpl.
  rewrite H. simpl. rewrite lookup_insert_eq. simpl.
  rewrite <- !app_assoc. simpl.
  by destruct (generate_clicked w).
Qed.

(** The three ways a run with a credential can go. *)

Lemma run_idle w env (wd : World) :
  truthy_str (api_key_input w) = true →
  generate_clicked w = false →
  script_run service w env wd =
  (inr (), mkState (<["OPENAI_API_KEY" := api_key_input w]> env)
             (form_events (api_key_input w)) wd).
Proof.
  intros Hkey Hclick. unfold script_run.
  rewrite (main_with_key w _ Hkey), Hclick. reflexivity.
Qed.

Lemma run_incomplete w env (wd : World) :
  truthy_str (api_key_input w) = true →
  generate_clicked w = true →
  all_fields_filled (content_type_of w) (category_of w) (audience_of w)
    (format_of w) (duration_of w) (topic_input w) = false →
  script_run service w env wd =
  (inr (), mkState (<["OPENAI_API_KEY" := api_key_input w]> env)
             (form_events (api_key_input w) ++
              [Rendered (StWarning "Please fill in all the fields.")]) wd).
Proof.
  intros Hkey Hclick Hfill. unfold script_run.
  rewrite (main_with_key w _ Hkey), Hclick. simpl.
  by rewrite (on_generate_incomplete _ _ _ _ _ _ _ _ Hfill).
Qed.

Lemma run_complete w env (wd : World) :
  truthy_str (api_key_input w) = true →
  generate_clicked w = true →
  all_fields_filled (content_type_of w) (category_of w) (audience_of w)
    (format_of w) (duration_of w) (topic_input w) = true →
  script_run service w env wd =
  let req := script_request (api_key_input w) w in
  (inr (), mkState (<["OPENAI_API_KEY" := api_key_input w]> env)
             (form_events (api_key_input w) ++
              [ Rendered (StSpinner "Generating script...");
                Invoked (script_inputs (content_type_of w) (topic_input w)
                           (category_of w) (audience_of w) (format_of w)
                           (duration_of w));
                Requested req ] ++
              match (service wd req).1 with
              | Returned text =>
                  [ Rendered (StSuccess "Script generated successfully!");
                    Rendered (StSubheader "Generated Script");
                    Rendered (StWrite text) ]
              | Raised e =>
                  [ Rendered (StError ("An error occurred: " +:+ exc_text e)) ]
              end)
             (service wd req).2).
Proof.
  intros Hkey Hclick Hfill. unfold script_run.
  rewrite (main_with_key w _ Hkey), Hclick. simpl.
  rewrite (on_generate_complete _ _ _ _ _ _ _ _ Hfill).
  unfold after_request. simpl.
  change (request_for _ _ _ _ _ _ _) with (script_request (api_key_input w) w).
  by destruct (service wd _).1.
Qed.

Lemma run_no_key w env (wd : World) :
  truthy_str (api_key_input w) = false →
  script_run service w env wd =
  (inr (), mkState env
             (map Rendered header_page ++
              [Rendered (StWarning "Please enter your OpenAI API key in the sidebar.")])
             wd).
Proof. intros Hkey. unfold script_run. by rewrite (main_no_key w _ Hkey). Qed.

End Runs.

(** Case analysis on a run: complete click, incomplete click, no click, no
    credential; the run is rewritten to its outcome in each case. *)
Ltac run_cases service w env wd :=
  let Hkey := fresh "Hkey" in
  let Hclick := fresh "Hclick" in
  let Hfill := fresh "Hfill" in
  destruct (truthy_str (api_key_input w)) eqn:Hkey;
  [ destruct (generate_clicked w) eqn:Hclick;
    [ destruct (all_fields_filled (content_type_of w) (category_of w)
                  (audience_of w) (format_of w) (duration_of w) (topic_input w))
        eqn:Hfill;
      [ rewrite (run_complete service w env wd Hkey Hclick Hfill)
      | rewrite (run_incomplete service w env wd Hkey Hclick Hfill) ]
    | rewrite (run_idle service w env wd Hkey Hclick) ]
  | rewrite (run_no_key service w env wd Hkey) ].


(** ** Values of the widgets *)

Lemma selectbox_value_in (first : string) (others : list string) (index : nat) :
  selectbox_value (first :: others) index ∈ first :: others.
Proof.
  unfold selectbox_value.
  destruct ((first :: others) !! index) as [o|] eqn:Hlook.
  - by eapply list_elem_of_lookup_2.
  - simpl. apply list_elem_of_here.
Qed.

Lemma content_type_of_enum w : content_type_of w ∈ ["youtube"; "instagram"].
Proof.
  unfold content_type_of.
  pose proof (selectbox_value_in "YouTube" ["Instagram"] (content_type_index w)) as H.
  set_unfold. destruct H as [-> | [-> | []]]; vm_compute; auto.
Qed.

Lemma category_of_enum w :
  category_of w ∈ ["Fashion"; "Education"; "Technology"; "Health"; "Travel"].
Proof. apply selectbox_value_in. Qed.

Lemma format_of_enum w : format_of w ∈ ["reel"; "video"].
Proof.
  unfold format_of.
  pose proof (selectbox_value_in "Reel" ["Video"] (format_index w)) as H.
  set_unfold. destruct H as [-> | [-> | []]]; vm_compute; auto.
Qed.

Lemma audience_of_enum w :
  Forall (λ label, label ∈ ["Students"; "Housewives"; "Professionals";
                            "Teenagers"; "Seniors"]) (audience_of w).
Proof.
  unfold audience_of, multiselect_value. apply Forall_forall.
  intros label Hin. apply list_elem_of_omap in Hin as (i & _ & Hi).
  by eapply list_elem_of_lookup_2.
Qed.

Lemma duration_of_eq w :
  duration_of w = 15 + 5 * Z.min (Z.of_nat (duration_notch w)) 57.
Proof. reflexivity. Qed.

Lemma duration_of_bounds w :
  15 ≤ duration_of w ≤ 300 ∧ (duration_of w - 15) `mod` 5 = 0.
Proof.
  rewrite duration_of_eq. split; [lia |].
  replace (15 + 5 * Z.min (Z.of_nat (duration_notch w)) 57 - 15)
    with (Z.min (Z.of_nat (duration_notch w)) 57 * 5) by lia.
  apply Z.mod_mul. lia.
Qed.

Lemma content_type_of_truthy w : truthy_str (content_type_of w) = true.
Proof.
  pose proof (content_type_of_enum w) as H. set_unfold.
  by destruct H as [-> | [-> | []]].
Qed.

Lemma category_of_truthy w : truthy_str (category_of w) = true.
Proof.
  pose proof (category_of_enum w) as H. set_unfold.
  by destruct H as [-> | [-> | [-> | [-> | [-> | []]]]]].
Qed.

Lemma format_of_truthy w : truthy_str (format_of w) = true.
Proof.
  pose proof (format_of_enum w) as H. set_unfold.
  by destruct H as [-> | [-> | []]].
Qed.

Lemma duration_of_truthy w : truthy_int (duration_of w) = true.
Proof.
  unfold truthy_int. pose proof (duration_of_bounds w) as [H _].
  apply negb_true_iff, Z.eqb_neq. lia.
Qed.

(** The test of line 98 on the values of the widgets comes down to the two
    fields that can be empty. *)
Lemma fields_filled_widgets w :
  all_fields_filled (content_type_of w) (category_of w) (audience_of w)
    (format_of w) (duration_of w) (topic_input w)
  = truthy_list (audience_of w) && truthy_str (topic_input w).
Proof.
  unfold all_fields_filled.
  by rewrite content_type_of_truthy, category_of_truthy, format_of_truthy,
    duration_of_truthy, !andb_true_r.
Qed.

Lemma truthy_str_false (s : string) : truthy_str s = false ↔ s = "".
Proof. by destruct s. Qed.

Lemma truthy_list_false {A} (l : list A) : truthy_list l = false ↔ l = [].
Proof. by destruct l. Qed.

(** ** The claims of the specification *)

Section Claims.

Context {World : Type} (service : World → Request → Outcome * World).

Implicit Types (s : State World) (w : Widgets) (llm : ChatOpenAI).

(** C1.  Whatever the six values are, the one message that
    [generate_script] sends through the chain is a user message whose
    text holds the template text with every value at its place: the
    sentence "Write a (format) script for (content type) about (topic).",
    the category after "The category of the topic is ", the joined
    audience after "the target audience includes ", the duration between
    "the duration is " and " seconds", the instruction to generate a
    title, and the output-format hint with its lines "Title:" and
    "Script:". *)
Theorem prompt_contains_fields ct topic cat aud fmt d llm s :
  ∃ text,
    trace (generate_script service ct topic cat aud fmt d (create_chain llm) s).2
    = trace s ++
      [ Invoked (script_inputs ct topic cat aud fmt d);
        Requested (mkRequest (openai_api_key llm) (model_name llm)
                     (temperature llm) [mkMessage "user" text]) ] ∧
    PyString.contains text
      ("Write a " +:+ fmt +:+ " script for " +:+ ct +:+ " about " +:+ topic +:+ ".") ∧
    PyString.contains text ("The category of the topic is " +:+ cat) ∧
    PyString.contains text
      ("the target audience includes " +:+ PyString.join ", " aud) ∧
    PyString.contains text ("the duration is " +:+ pretty d +:+ " seconds") ∧
    PyString.contains text
      "Generate an appropriate title as well for the generated content." ∧
    PyString.contains text
      ("Output format:" +:+ nl +:+ indent +:+ "Title:" +:+ nl +:+
       indent +:+ "Script:").
Proof.
  exists (expected_prompt fmt ct topic cat (PyString.join ", " aud) (pretty d)).
  split; [by rewrite generate_script_run |].
  unfold expected_prompt. repeat split; find_needle.
Qed.

(** C5.  [generate_script] hands the chain the audience as one string:
    the selected labels in selection order with a comma and a space
    between neighbours, exactly what the library's joining function
    gives.  A selection of one label is that label, with no separator;
    with two or more labels the separator stands only between labels. *)
Theorem audience_serialization ct topic cat aud fmt d llm s :
  (∃ kw,
     invocations
       (trace (generate_script service ct topic cat aud fmt d (create_chain llm) s).2)
     = invocations (trace s) ++ [kw] ∧
     kw !! "audience" = Some (PyStr (PyString.join ", " aud))) ∧
  PyString.join ", " aud = String.concat ", " aud ∧
  PyString.join ", " ["Seniors"] = "Seniors" ∧
  (∀ x, PyString.join ", " [x] = x) ∧
  (∀ x y rest,
     PyString.join ", " (x :: y :: rest)
     = x +:+ ", " +:+ PyString.join ", " (y :: rest)).
Proof.
  repeat split.
  - exists (script_inputs ct topic cat aud fmt d). split.
    + rewrite generate_script_run. unfold after_request, invocations. simpl.
      by rewrite omap_app.
    + apply script_inputs_lookup.
  - apply PyStringFacts.join_concat.
  - intros x. simpl. apply PyStringFacts.append_nil_r.
Qed.

(** C4.  When the credential field is empty, a run (whether or not the
    button is reported as clicked) draws the page down to the credential
    field, shows the warning asking for the key, and stops: no client is
    built, the chain is not invoked, no request leaves, and the
    environment and the world are as they were. *)
Theorem no_credential_no_pipeline w env (wd : World) :
  truthy_str (api_key_input w) = false →
  let r := script_run service w env wd in
  r.1 = inr () ∧
  page (trace r.2)
  = header_page ++ [StWarning "Please enter your OpenAI API key in the sidebar."] ∧
  warnings (trace r.2) = ["Please enter your OpenAI API key in the sidebar."] ∧
  constructions (trace r.2) = [] ∧
  invocations (trace r.2) = [] ∧
  requests (trace r.2) = [] ∧
  environ r.2 = env ∧
  world r.2 = wd.
Proof.
  intros Hkey. rewrite (run_no_key service w env wd Hkey).
  by repeat split.
Qed.


(** C3.  With a credential present, a click on the button while any of
    the six values is empty (for the values the widgets give, that is an
    empty topic or an empty audience) changes the run in one way only:
    the warning "Please fill in all the fields." is added below the
    form.  The chain is not invoked, no request leaves, and the
    environment and the world are those of the run without the click. *)
Theorem incomplete_submission_is_noop w env (wd : World) :
  truthy_str (api_key_input w) = true →
  truthy_str (content_type_of w) = false ∨ truthy_str (topic_input w) = false ∨
  truthy_str (category_of w) = false ∨ truthy_list (audience_of w) = false ∨
  truthy_str (format_of w) = false ∨ truthy_int (duration_of w) = false →
  let clicked := script_run service (with_click true w) env wd in
  let idle := script_run service (with_click false w) env wd in
  clicked.1 = inr () ∧
  trace clicked.2
  = trace idle.2 ++ [Rendered (StWarning "Please fill in all the fields.")] ∧
  environ clicked.2 = environ idle.2 ∧
  world clicked.2 = wd ∧
  world idle.2 = wd ∧
  invocations (trace clicked.2) = [] ∧
  requests (trace clicked.2) = [] ∧
  warnings (trace clicked.2) = ["Please fill in all the fields."] ∧
  errors (trace clicked.2) = [].
Proof.
  intros Hkey Hempty.
  assert (Hfill : all_fields_filled (content_type_of w) (category_of w)
                    (audience_of w) (format_of w) (duration_of w) (topic_input w)
                  = false).
  { unfold all_fields_filled.
    destruct Hempty as [H | [H | [H | [H | [H | H]]]]]; rewrite H;
      rewrite ?andb_false_r; reflexivity. }
  simpl.
  rewrite (run_incomplete service (with_click true w) env wd Hkey eq_refl Hfill).
  rewrite (run_idle service (with_click false w) env wd Hkey eq_refl).
  by repeat split.
Qed.




(** C9.  With a credential present and the button clicked, the three
    selectors always give a non-empty string and the slider a value of
    at least 15, so the test of line 98 can only fail on the topic or
    the audience: the warning "Please fill in all the fields." is on the
    page exactly when the topic is the empty string or no audience is
    selected. *)
Theorem fill_in_warning_iff w env (wd : World) :
  truthy_str (api_key_input w) = true →
  generate_clicked w = true →
  truthy_str (content_type_of w) = true ∧
  truthy_str (category_of w) = true ∧
  truthy_str (format_of w) = true ∧
  15 ≤ duration_of w ∧
  truthy_int (duration_of w) = true ∧
  ("Please fill in all the fields."
     ∈ warnings (trace (script_run service w env wd).2)
   ↔ topic_input w = "" ∨ audience_of w = []).
Proof.
  intros Hkey Hclick.
  split; [apply content_type_of_truthy |].
  split; [apply category_of_truthy |].
  split; [apply format_of_truthy |].
  split; [apply duration_of_bounds |].
  split; [apply duration_of_truthy |].
  rewrite <- truthy_str_false, <- truthy_list_false.
  destruct (all_fields_filled (content_type_of w) (category_of w)
              (audience_of w) (format_of w) (duration_of w) (topic_input w))
    eqn:Hfill.
  - rewrite (run_complete service w env wd Hkey Hclick Hfill).
    rewrite fields_filled_widgets in Hfill.
    apply andb_true_iff in Hfill as [Haud Htopic].
    rewrite Haud, Htopic. unfold warnings, page. simpl.
    destruct (service wd _).1; simpl;
      (split; [intros Hin; by apply elem_of_nil in Hin | by intros [|]]).
  - rewrite (run_incomplete service w env wd Hkey Hclick Hfill).
    rewrite fields_filled_widgets in Hfill.
    apply andb_false_iff in Hfill.
    unfold warnings, page. simpl.
    split; [intros _; tauto | intros _; apply list_elem_of_here].
Qed.

End Claims.

(** C10.  The prompt is a function of the six values alone.  Two
    invocations of [generate_script] with equal values send the same
    messages, whatever the service, its condition, the environment, the
    log so far and the client are.  The reply is not: against a service
    that numbers its replies, the same invocation returns two different
    texts. *)
Theorem prompt_is_deterministic {W1 W2 : Type}
    (service1 : W1 → Request → Outcome * W1)
    (service2 : W2 → Request → Outcome * W2)
    ct topic cat aud fmt d llm1 llm2 (s1 : State W1) (s2 : State W2) :
  let run1 := generate_script service1 ct topic cat aud fmt d (create_chain llm1) s1 in
  let run2 := generate_script service2 ct topic cat aud fmt d (create_chain llm2) s2 in
  last_prompt (trace run1.2) = last_prompt (trace run2.2) ∧
  last_prompt (trace run1.2)
  = Some [mkMessage "user"
            (expected_prompt fmt ct topic cat (PyString.join ", " aud) (pretty d))] ∧
  length (requests (trace run1.2)) = S (length (requests (trace s1))) ∧
  length (requests (trace run2.2)) = S (length (requests (trace s2))) ∧
  (generate_script numbered ct topic cat aud fmt d (create_chain llm1)
     (mkState ∅ [] 0%nat)).1
  ≠ (generate_script numbered ct topic cat aud fmt d (create_chain llm1)
       (mkState ∅ [] 1%nat)).1.
Proof.
  assert (Hlast : ∀ W (service : W → Request → Outcome * W) llm (s : State W),
            requests (trace (generate_script service ct topic cat aud fmt d
                               (create_chain llm) s).2)
            = requests (trace s) ++ [request_for llm ct topic cat aud fmt d]).
  { intros W service llm s. rewrite generate_script_run.
    unfold after_request, requests. simpl. by rewrite omap_app. }
  cbv zeta. unfold last_prompt. rewrite !Hlast, !last_snoc, !length_app.
  cbn [length fmap option_fmap option_map req_messages request_for].
  repeat split; try lia.
  rewrite !generate_script_run. unfold numbered. cbn [fst snd world].
  intros H. vm_compute in H. discriminate H.
Qed.

(** ** The claims at concrete runs *)

(** The example of the specification: the prompt of the demo form, as the
    service receives it. *)
Example demo_prompt_contains :
  match last_prompt (trace (script_run scripted demo_widgets ∅ []).2) with
  | Some [m] =>
      role m = "user" ∧
      PyString.is_in "Write a reel script for youtube about coffee brewing" (content m) = true ∧
      PyString.is_in "category of the topic is Education" (content m) = true ∧
      PyString.is_in "target audience includes Students, Professionals" (content m) = true ∧
      PyString.is_in "duration is 30 seconds" (content m) = true
  | _ => False
  end.
Proof. vm_compute. repeat split. Qed.

Example demo_environment :
  environ (script_run scripted demo_widgets {[ "OPENAI_API_KEY" := "sk-old"; "HOME" := "/root" ]} []).2
  = {[ "OPENAI_API_KEY" := "sk-demo"; "HOME" := "/root" ]}.
Proof. vm_compute. reflexivity. Qed.

Lemma no_credential_no_pipeline_witness :
  truthy_str (api_key_input no_key_widgets) = false ∧
  let r := script_run scripted no_key_widgets ∅ refused_then_answered in
  r.1 = inr () ∧
  page (trace r.2)
  = header_page ++ [StWarning "Please enter your OpenAI API key in the sidebar."] ∧
  warnings (trace r.2) = ["Please enter your OpenAI API key in the sidebar."] ∧
  constructions (trace r.2) = [] ∧
  invocations (trace r.2) = [] ∧
  requests (trace r.2) = [] ∧
  environ r.2 = ∅ ∧
  world r.2 = refused_then_answered.
Proof.
  split; [reflexivity |].
  apply (no_credential_no_pipeline scripted no_key_widgets ∅ refused_then_answered).
  reflexivity.
Defined.

Lemma incomplete_submission_is_noop_witness :
  truthy_str (api_key_input no_topic_widgets) = true ∧
  truthy_str (topic_input no_topic_widgets) = false ∧
  let clicked := script_run scripted (with_click true no_topic_widgets) ∅
                   refused_then_answered in
  let idle := script_run scripted (with_click false no_topic_widgets) ∅
                refused_then_answered in
  clicked.1 = inr () ∧
  trace clicked.2
  = trace idle.2 ++ [Rendered (StWarning "Please fill in all the fields.")] ∧
  environ clicked.2 = environ idle.2 ∧
  world clicked.2 = refused_then_answered ∧
  world idle.2 = refused_then_answered ∧
  invocations (trace clicked.2) = [] ∧
  requests (trace clicked.2) = [] ∧
  warnings (trace clicked.2) = ["Please fill in all the fields."] ∧
  errors (trace clicked.2) = [].
Proof.
  split; [reflexivity |]. split; [reflexivity |].
  apply (incomplete_submission_is_noop scripted no_topic_widgets ∅
           refused_then_answered).
  - reflexivity.
  - right. left. reflexivity.
Defined.



Lemma fill_in_warning_iff_witness :
  truthy_str (api_key_input no_topic_widgets) = true ∧
  generate_clicked no_topic_widgets = true ∧
  truthy_str (content_type_of no_topic_widgets) = true ∧
  truthy_str (category_of no_topic_widgets) = true ∧
  truthy_str (format_of no_topic_widgets) = true ∧
  15 ≤ duration_of no_topic_widgets ∧
  truthy_int (duration_of no_topic_widgets) = true ∧
  ("Please fill in all the fields."
     ∈ warnings (trace (script_run scripted no_topic_widgets ∅
                          refused_then_answered).2)
   ↔ topic_input no_topic_widgets = "" ∨ audience_of no_topic_widgets = []).
Proof.
  do 2 (split; [reflexivity |]).
  apply (fill_in_warning_iff scripted no_topic_widgets ∅ refused_then_answered);
    reflexivity.
Defined.


(** * Further properties of the script *)

Section Further.

Context {World : Type} (service : World → Request → Outcome * World).

Implicit Types (s : State World) (w : Widgets) (llm : ChatOpenAI).





End Further.

(** ** The template and the inputs *)

(** Filling succeeds exactly when every field of the template has a
    value. *)
Lemma vformat_succeeds_iff segs (kw : gmap string PyVal) :
  (∃ out, Template.vformat segs kw = inr out)
  ↔ Forall (λ name, is_Some (kw !! name)) (template_fields segs).
Proof.
  induction segs as [|[text|name] segs IH]; simpl.
  - split; [constructor | by eexists].
  - rewrite <- IH. destruct (Template.vformat segs kw) as [e|out].
    + split; intros [out' Hout]; discriminate.
    + split; intros _; by eexists.
  - rewrite Forall_cons, <- IH.
    destruct (kw !! name) as [v|]; simpl.
    + destruct (Template.vformat segs kw) as [e|out].
      * split; [intros [out' Hout]; discriminate | intros [_ [out' Hout]]; discriminate].
      * split; [intros _; split; by eexists | intros _; by eexists].
    + split; [intros [out' Hout]; discriminate | intros [[v Hv] _]; discriminate].
Qed.

Lemma script_inputs_dom ct topic cat aud fmt d :
  dom (script_inputs ct topic cat aud fmt d)
  = list_to_set ["format"; "content_type"; "topic"; "category"; "audience"; "duration"].
Proof.
  unfold script_inputs. rewrite !dom_insert_L, dom_empty_L. simpl. set_solver.
Qed.

(** X4.  The six keys that [generate_script] puts in the inputs are exactly
    the replacement fields of the template of [define_prompt_template],
    and the template names each of them once; so, whatever the six values
    are, every field finds its value and filling the prompt cannot fail. *)
Theorem template_fields_match_inputs ct topic cat aud fmt d :
  ∃ segs,
    Template.parse user_template = inr segs ∧
    template_fields segs
    = ["format"; "content_type"; "topic"; "category"; "audience"; "duration"] ∧
    NoDup (template_fields segs) ∧
    dom (script_inputs ct topic cat aud fmt d) = list_to_set (template_fields segs) ∧
    Forall (λ name, is_Some (script_inputs ct topic cat aud fmt d !! name))
      (template_fields segs) ∧
    ∃ text, Template.vformat segs (script_inputs ct topic cat aud fmt d) = inr text.
Proof.
  eexists. split; [apply user_template_parse |].
  assert (Hall : Forall (λ name, is_Some (script_inputs ct topic cat aud fmt d !! name))
                   ["format"; "content_type"; "topic"; "category"; "audience"; "duration"]).
  { destruct (script_inputs_lookup ct topic cat aud fmt d)
      as (Hf & Hct & Ht & Hc & Ha & Hd).
    repeat constructor; by eexists. }
  split; [reflexivity |]. split.
  { simpl. apply (bool_decide_unpack _). by vm_compute. }
  split; [apply script_inputs_dom |].
  split; [exact Hall |].
  apply vformat_succeeds_iff. exact Hall.
Qed.

Section Composition.

Context {World : Type} (service : World → Request → Outcome * World).

Implicit Types (s : State World) (w : Widgets) (llm : ChatOpenAI).

(** X5.  [generate_script] has no handler and shows nothing: it returns
    the text of the reply as the service gave it, or ends with the very
    exception the client raised; either way it has logged one invocation
    and one request, the page and the environment are untouched, and the
    world has moved by that request. *)
Theorem generate_script_passes_outcome ct topic cat aud fmt d llm s :
  let req := request_for llm ct topic cat aud fmt d in
  let r := generate_script service ct topic cat aud fmt d (create_chain llm) s in
  r.1 = match (service (world s) req).1 with
        | Returned text => inr text
        | Raised e => inl e
        end ∧
  requests (trace r.2) = requests (trace s) ++ [req] ∧
  invocations (trace r.2)
  = invocations (trace s) ++ [script_inputs ct topic cat aud fmt d] ∧
  page (trace r.2) = page (trace s) ∧
  constructions (trace r.2) = constructions (trace s) ∧
  environ r.2 = environ s ∧
  world r.2 = (service (world s) req).2.
Proof.
  cbv zeta. rewrite generate_script_run.
  unfold after_request, requests, invocations, page, constructions. simpl.
  rewrite !omap_app. simpl. by rewrite !app_nil_r.
Qed.

(** X6.  Whatever the browser reports, the values a run passes to the
    chain are well formed: the content type is "youtube" or "instagram"
    and the format "reel" or "video" (both in lower case), the category is
    one of the five options as displayed, the audience is a non-empty list
    of the five labels joined by a comma and a space, the topic is the
    text typed and is not empty, the duration is the slider value, and the
    inputs have exactly the six keys. *)
Theorem submitted_fields_are_enumerated w env (wd : World) :
  Forall
    (λ kw,
       ∃ ct cat fmt labels,
         kw = script_inputs ct (topic_input w) cat labels fmt (duration_of w) ∧
         ct ∈ ["youtube"; "instagram"] ∧
         cat ∈ ["Fashion"; "Education"; "Technology"; "Health"; "Travel"] ∧
         fmt ∈ ["reel"; "video"] ∧
         labels ≠ [] ∧
         Forall (λ label, label ∈ ["Students"; "Housewives"; "Professionals";
                                   "Teenagers"; "Seniors"]) labels ∧
         topic_input w ≠ "" ∧
         15 ≤ duration_of w ≤ 300 ∧
         dom kw = list_to_set ["format"; "content_type"; "topic"; "category";
                               "audience"; "duration"])
    (invocations (trace (script_run service w env wd).2)).
Proof.
  run_cases service w env wd; [| by constructor ..].
  rewrite fields_filled_widgets in Hfill.
  apply andb_true_iff in Hfill as [Haud Htopic].
  unfold invocations. simpl.
  destruct (service wd _).1; simpl; (constructor; [| constructor]);
    exists (content_type_of w), (category_of w), (format_of w), (audience_of w);
    (split; [reflexivity |]);
    (split; [apply content_type_of_enum |]);
    (split; [apply category_of_enum |]);
    (split; [apply format_of_enum |]);
    (split; [by destruct (audience_of w) |]);
    (split; [apply audience_of_enum |]);
    (split; [by destruct (topic_input w) |]);
    (split; [apply duration_of_bounds | apply script_inputs_dom]).
Qed.



End Composition.

(** ** Serialized audiences *)

Lemma comma_free_head (x y r1 r2 : string) :
  comma_free x = true → comma_free y = true →
  (r1 = "" ∨ ∃ t, r1 = String "," t) →
  (r2 = "" ∨ ∃ t, r2 = String "," t) →
  x +:+ r1 = y +:+ r2 → x = y ∧ r1 = r2.
Proof.
  revert y. induction x as [|c x IH]; intros [|c' y] Hx Hy Hr1 Hr2 Heq.
  - done.
  - rewrite PyStringFacts.append_cons in Heq. simpl in Hy.
    apply andb_true_iff in Hy as [Hc' _].
    destruct Hr1 as [-> | [t ->]]; [discriminate |].
    injection Heq as <- _. by vm_compute in Hc'.
  - rewrite PyStringFacts.append_cons in Heq. simpl in Hx.
    apply andb_true_iff in Hx as [Hc _].
    destruct Hr2 as [-> | [t ->]]; [discriminate |].
    injection Heq as -> _. by vm_compute in Hc.
  - rewrite !PyStringFacts.append_cons in Heq. injection Heq as -> Heq.
    simpl in Hx, Hy.
    apply andb_true_iff in Hx as [_ Hx]. apply andb_true_iff in Hy as [_ Hy].
    destruct (IH y Hx Hy Hr1 Hr2 Heq) as [-> ->]. done.
Qed.

Lemma join_rest_shape (items : list string) :
  PyString.join_rest ", " items = ""
  ∨ ∃ t, PyString.join_rest ", " items = String "," t.
Proof. destruct items as [|x rest]; [by left | right; by eexists]. Qed.

Lemma join_rest_inj (l1 l2 : list string) :
  Forall (λ x, comma_free x = true) l1 →
  Forall (λ x, comma_free x = true) l2 →
  PyString.join_rest ", " l1 = PyString.join_rest ", " l2 → l1 = l2.
Proof.
  revert l2. induction l1 as [|x l1 IH]; intros [|y l2] H1 H2 Heq.
  - done.
  - discriminate.
  - discriminate.
  - apply Forall_cons in H1 as [Hx H1]. apply Forall_cons in H2 as [Hy H2].
    simpl in Heq. injection Heq as Heq.
    destruct (comma_free_head x y _ _ Hx Hy (join_rest_shape l1)
                (join_rest_shape l2) Heq) as [-> Hrest].
    by rewrite (IH l2 H1 H2 Hrest).
Qed.

(** Joined lists of plain labels are equal only when the lists are. *)
Lemma join_inj (l1 l2 : list string) :
  Forall (λ x, plain_label x = true) l1 →
  Forall (λ x, plain_label x = true) l2 →
  PyString.join ", " l1 = PyString.join ", " l2 → l1 = l2.
Proof.
  assert (Hfree : ∀ l, Forall (λ x, plain_label x = true) l →
                       Forall (λ x, comma_free x = true) l).
  { intros l Hl. eapply Forall_impl; [exact Hl |]. intros x Hx.
    by apply andb_true_iff in Hx as [_ Hx]. }
  assert (Hne : ∀ x rest, plain_label x = true →
                          "" ≠ x +:+ PyString.join_rest ", " rest).
  { intros [|c x] rest Hx; [discriminate | by rewrite PyStringFacts.append_cons]. }
  destruct l1 as [|x l1], l2 as [|y l2]; intros H1 H2 Heq; simpl in Heq.
  - done.
  - apply Forall_cons in H2 as [Hy _]. by destruct (Hne y l2 Hy).
  - apply Forall_cons in H1 as [Hx _]. symmetry in Heq. by destruct (Hne x l1 Hx).
  - pose proof (Hfree _ H1) as F1. pose proof (Hfree _ H2) as F2.
    apply Forall_cons in F1 as [Fx F1]. apply Forall_cons in F2 as [Fy F2].
    destruct (comma_free_head x y _ _ Fx Fy (join_rest_shape l1)
                (join_rest_shape l2) Heq) as [-> Hrest].
    by rewrite (join_rest_inj l1 l2 F1 F2 Hrest).
Qed.

Lemma audience_of_plain w :
  Forall (λ x, plain_label x = true) (audience_of w).
Proof.
  eapply Forall_impl; [apply audience_of_enum |].
  intros label Hin. set_unfold.
  by destruct Hin as [-> | [-> | [-> | [-> | [-> | []]]]]].
Qed.

(** X7.  The string that stands for the audience in the prompt determines
    the selection: two forms whose audiences are joined to the same string
    have selected the same labels in the same order, because no label is
    empty or holds a comma. *)
Theorem audience_join_injective (w1 w2 : Widgets) :
  PyString.join ", " (audience_of w1) = PyString.join ", " (audience_of w2) →
  audience_of w1 = audience_of w2.
Proof. apply join_inj; apply audience_of_plain. Qed.

(** ** The further properties at concrete runs *)



Lemma audience_join_injective_witness :
  PyString.join ", " (audience_of demo_widgets)
  = PyString.join ", " (audience_of (with_notch 57 no_key_widgets)) ∧
  audience_of demo_widgets = audience_of (with_notch 57 no_key_widgets).
Proof.
  split; [reflexivity |].
  apply (audience_join_injective demo_widgets (with_notch 57 no_key_widgets)).
  reflexivity.
Defined.
